(** * Notes API: the in-memory notes collection and its HTTP handlers

    A shallow embedding of [src/index.js]: the [notes] array, the
    [generateId] helper and the five handlers mounted under
    [/api/notes], each written as a function from the collection it
    finds to the response it sends and the collection it leaves.

    Conventions of the embedding:
    - a JavaScript number is the value it denotes: a finite number is a
      rational, next to the two infinities and [NaN];
    - the ids stored in the collection are integers ([Z]): the seed
      notes carry the literals 1, 2, 3 and every other id is a result
      of [generateId]; a client never supplies one.  Integer arithmetic
      on them is the exact one, which is what JavaScript computes for
      magnitudes below 2^53;
    - [req.body] is the object that [express.json()] parsed; reading a
      property it does not have gives [undefined];
    - [new Date().toISOString()] is an input of the handler that reads
      the clock.

    The route [/], the fallback for unknown routes and the logging
    middleware neither read nor assign [notes] and answer with constants;
    they are left out.  [/health] and the error handler are modelled for
    what they read of [process.env.NODE_ENV]. *)

From Stdlib Require Import ZArith QArith List String Bool Lia Sorted.
Import ListNotations.

Set Warnings "-register-all".

Local Open Scope string_scope.
Local Open Scope list_scope.
Local Open Scope Z_scope.

(** ** JavaScript values *)

Module JS.

Inductive number : Type :=
| Finite (q : Q)
| Infinity (negative : bool)
| NaN.

(** The number denoted by an integer. *)
Definition of_Z (z : Z) : number := Finite (inject_Z z).

(** [a === b] on numbers: [NaN] equals nothing, itself included. *)
Definition strict_eq (a b : number) : bool :=
  match a, b with
  | Finite p, Finite q => Qeq_bool p q
  | Infinity s, Infinity t => Bool.eqb s t
  | _, _ => false
  end.

(** The values a parsed JSON document holds, and [undefined]. *)
Inductive value : Type :=
| Undefined
| Null
| Boolean (b : bool)
| Num (n : number)
| Str (s : string)
| Arr (elems : list value)
| Obj (props : list (string * value)).

Definition object : Type := list (string * value).

(** [o.k]: the value of an own property, [undefined] when absent.  A
    parsed object holds a key once, so the first binding is the only one. *)
Fixpoint get (o : object) (k : string) : value :=
  match o with
  | [] => Undefined
  | (k', v) :: o' => if String.eqb k k' then v else get o' k
  end.

(** ToBoolean. *)
Definition truthy (v : value) : bool :=
  match v with
  | Undefined => false
  | Null => false
  | Boolean b => b
  | Num (Finite q) => negb (Qeq_bool q 0)
  | Num (Infinity _) => true
  | Num NaN => false
  | Str s => negb (String.eqb s "")
  | Arr _ => true
  | Obj _ => true
  end.

(** [a || b]. *)
Definition or (a b : value) : value := if truthy a then a else b.

(** [v !== undefined]. *)
Definition defined (v : value) : bool :=
  match v with
  | Undefined => false
  | _ => true
  end.

(** [Math.max(x, ...xs)] on integers. *)
Definition Math_max (x : Z) (xs : list Z) : Z := fold_left Z.max xs x.

End JS.

Import JS.

(** ** The data model *)

Module Note.

Record t : Type := mk {
  id : Z;
  content : value;
  important : value;
  date : string
}.

End Note.

Abbreviation Note := Note.t.

(** The collection at start-up; the three dates are the clock readings
    taken while the array literal is evaluated. *)
Definition seed (d1 d2 d3 : string) : list Note :=
  [ Note.mk 1 (Str "HTML is easy") (Boolean true) d1;
    Note.mk 2 (Str "Browser can execute only JavaScript") (Boolean false) d2;
    Note.mk 3 (Str "GET and POST are the most important methods of HTTP protocol")
            (Boolean true) d3 ].

Definition ids (notes : list Note) : list Z := map Note.id notes.

(** [generateId]: one more than the largest id, 1 on an empty array. *)
Definition generateId (notes : list Note) : Z :=
  let maxId :=
    match ids notes with
    | [] => 0
    | x :: xs => Math_max x xs
    end in
  maxId + 1.

(** ** Responses *)

Inductive payload : Type :=
| json_note (note : Note)
| json_notes (notes : list Note)
| json_error (error : string)
| empty.

Record response : Type := Response {
  status : Z;
  sent : payload
}.

(** ** The handlers

    Each handler takes the collection and returns the response together
    with the collection it assigns to [notes] (the same one when it
    assigns nothing). *)

(** [note.id === id] for a stored note and the number read off the path. *)
Definition has_id (id : number) (note : Note) : bool :=
  strict_eq (of_Z (Note.id note)) id.

(** GET /api/notes *)
Definition getNotes (notes : list Note) : response * list Note :=
  (Response 200 (json_notes notes), notes).

(** GET /api/notes/:id *)
Definition getNote (id : number) (notes : list Note) : response * list Note :=
  match find (has_id id) notes with
  | Some note => (Response 200 (json_note note), notes)
  | None => (Response 404 (json_error "Note not found"), notes)
  end.

(** POST /api/notes *)
Definition createNote (body : object) (now : string) (notes : list Note)
  : response * list Note :=
  if negb (truthy (get body "content")) then
    (Response 400 (json_error "Content is required"), notes)
  else
    let note :=
      Note.mk (generateId notes)
              (get body "content")
              (or (get body "important") (Boolean false))
              now in
    (Response 201 (json_note note), notes ++ [note]).

(** [{ ...note, important: body.important !== undefined
                             ? body.important : note.important }] *)
Definition updatedNote (note : Note) (body : object) : Note :=
  Note.mk (Note.id note)
          (Note.content note)
          (if defined (get body "important")
           then get body "important"
           else Note.important note)
          (Note.date note).

(** PUT /api/notes/:id *)
Definition updateNote (id : number) (body : object) (notes : list Note)
  : response * list Note :=
  match find (has_id id) notes with
  | None => (Response 404 (json_error "Note not found"), notes)
  | Some note =>
      (Response 200 (json_note (updatedNote note body)),
       map (fun n => if has_id id n then updatedNote note body else n) notes)
  end.

(** DELETE /api/notes/:id *)
Definition deleteNote (id : number) (notes : list Note) : response * list Note :=
  (Response 204 empty, filter (fun note => negb (has_id id note)) notes).

(** ** Requests and the service as a transition system *)

Inductive request : Type :=
| GET_notes
| GET_note (id : number)
| POST_notes (body : object) (now : string)
| PUT_note (id : number) (body : object)
| DELETE_note (id : number).

Definition handle (req : request) (notes : list Note) : response * list Note :=
  match req with
  | GET_notes => getNotes notes
  | GET_note id => getNote id notes
  | POST_notes body now => createNote body now notes
  | PUT_note id body => updateNote id body notes
  | DELETE_note id => deleteNote id notes
  end.

(** The collections the service can hold: the seed, and whatever a
    request leaves behind. *)
Inductive reachable : list Note -> Prop :=
| reachable_seed d1 d2 d3 : reachable (seed d1 d2 d3)
| reachable_step req notes :
    reachable notes -> reachable (snd (handle req notes)).

(** The collection after a sequence of requests, served one after the
    other. *)
Definition serve (reqs : list request) (notes : list Note) : list Note :=
  fold_left (fun notes req => snd (handle req notes)) reqs notes.

(** ** Handlers that read the environment

    [process.env.NODE_ENV] is a string, or [undefined] when the variable
    is not set. *)

Definition env (variable : option string) : value :=
  match variable with
  | Some s => Str s
  | None => Undefined
  end.

Record health : Type := Health {
  health_status : string;
  service : string;
  timestamp : string;
  environment : value
}.

(** GET /health *)
Definition getHealth (NODE_ENV : option string) (now : string) : Z * health :=
  (200, Health "OK" "Note API Backend" now (or (env NODE_ENV) (Str "development"))).

Record failure : Type := Failure {
  error : string;
  message : string
}.

(** [process.env.NODE_ENV === 'development'] *)
Definition is_development (NODE_ENV : option string) : bool :=
  match NODE_ENV with
  | Some s => String.eqb s "development"
  | None => false
  end.

(** The error handler, for an [Error] whose message is [err_message]. *)
Definition errorHandler (NODE_ENV : option string) (err_message : string)
  : Z * failure :=
  (500, Failure "Internal server error"
                (if is_development NODE_ENV then err_message
                 else "Something went wrong")).

(** ** Sample inputs

    The collection as it stands after start-up at a fixed clock reading,
    and a few request bodies, used to run the handlers below. *)

Definition startup : string := "2026-01-01T00:00:00.000Z".
Definition later : string := "2026-01-01T00:05:00.000Z".

Definition notes0 : list Note := seed startup startup startup.

(** [{content: "test"}] *)
Definition body_test : object := [("content", Str "test")].

(** [{content: "test", important: 0}] *)
Definition body_zero : object :=
  [("content", Str "test"); ("important", Num (of_Z 0))].

(** [{content: "test", important: "yes"}] *)
Definition body_yes : object :=
  [("content", Str "test"); ("important", Str "yes")].

(** [{important: true}] *)
Definition body_important_true : object := [("important", Boolean true)].

(** [{content: ""}] *)
Definition body_empty_content : object := [("content", Str "")].

(** ** Basic facts *)

Section Numbers.

Lemma strict_eq_of_Z (a b : Z) : strict_eq (of_Z a) (of_Z b) = (a =? b).
Proof.
  unfold strict_eq, of_Z.
  destruct (Z.eqb_spec a b) as [->|Hne].
  - apply Qeq_bool_iff. reflexivity.
  - destruct (Qeq_bool (inject_Z a) (inject_Z b)) eqn:E; [|reflexivity].
    apply Qeq_bool_iff in E.
    elim Hne. exact (proj1 (inject_Z_injective a b) E).
Qed.

(** Two integers that are [===] to one number are the same integer. *)
Lemma strict_eq_of_Z_inj (a b : Z) (x : number) :
  strict_eq (of_Z a) x = true -> strict_eq (of_Z b) x = true -> a = b.
Proof.
  unfold strict_eq, of_Z. destruct x as [q| |]; try discriminate.
  intros Ha Hb. apply Qeq_bool_iff in Ha, Hb.
  apply (proj1 (inject_Z_injective a b)). rewrite Ha, Hb. reflexivity.
Qed.

Lemma strict_eq_NaN_r (x : number) : strict_eq x NaN = false.
Proof. destruct x; reflexivity. Qed.

Lemma Math_max_ge_init (xs : list Z) (x : Z) : x <= Math_max x xs.
Proof.
  unfold Math_max. revert x.
  induction xs as [|y ys IH]; intros x; simpl; [lia|].
  specialize (IH (Z.max x y)). lia.
Qed.

Lemma Math_max_ge (xs : list Z) (x y : Z) : In y xs -> y <= Math_max x xs.
Proof.
  unfold Math_max. revert x.
  induction xs as [|z zs IH]; intros x; simpl; [tauto|].
  intros [->|Hin].
  - pose proof (Math_max_ge_init zs (Z.max x y)) as H.
    unfold Math_max in H. lia.
  - apply IH, Hin.
Qed.

Lemma Math_max_In (xs : list Z) (x : Z) : In (Math_max x xs) (x :: xs).
Proof.
  unfold Math_max. revert x.
  induction xs as [|y ys IH]; intros x; simpl; [tauto|].
  destruct (IH (Z.max x y)) as [H|H]; [|tauto].
  destruct (Z.max_spec x y) as [[_ E]|[_ E]]; rewrite E in *; tauto.
Qed.

End Numbers.

Section Collection.

Lemma has_id_of_Z (z : Z) (n : Note) : has_id (of_Z z) n = (Note.id n =? z).
Proof. apply strict_eq_of_Z. Qed.

Lemma has_id_NaN (n : Note) : has_id NaN n = false.
Proof. apply strict_eq_NaN_r. Qed.

(** Notes matched by one path id carry one id. *)
Lemma has_id_same (x : number) (n m : Note) :
  has_id x n = true -> has_id x m = true -> Note.id n = Note.id m.
Proof. apply strict_eq_of_Z_inj. Qed.

Lemma generateId_nil : generateId [] = 1.
Proof. reflexivity. Qed.

(** On a non-empty collection the new id is the largest id plus one. *)
Lemma generateId_max (notes : list Note) :
  notes <> [] ->
  exists m, In m (ids notes) /\
            (forall i, In i (ids notes) -> i <= m) /\
            generateId notes = m + 1.
Proof.
  destruct notes as [|n ns]; [congruence|]. intros _.
  unfold generateId. cbn [ids map].
  exists (Math_max (Note.id n) (map Note.id ns)). split; [|split].
  - apply Math_max_In.
  - intros i [<-|Hi]; [apply Math_max_ge_init | apply Math_max_ge, Hi].
  - reflexivity.
Qed.

Lemma generateId_gt (notes : list Note) (i : Z) :
  In i (ids notes) -> i < generateId notes.
Proof.
  intros Hi. destruct notes as [|n ns]; [contradiction|].
  destruct (generateId_max (n :: ns)) as (m & _ & Hle & ->); [congruence|].
  specialize (Hle i Hi). lia.
Qed.

Lemma generateId_fresh (notes : list Note) : ~ In (generateId notes) (ids notes).
Proof. intros H. apply generateId_gt in H. lia. Qed.

Lemma find_has_id_None (x : number) (notes : list Note) :
  (forall n, In n notes -> has_id x n = false) -> find (has_id x) notes = None.
Proof.
  induction notes as [|n ns IH]; intros H; simpl; [reflexivity|].
  rewrite (H n) by (left; reflexivity).
  apply IH. intros m Hm. apply H. right. exact Hm.
Qed.

Lemma find_has_id_Some (x : number) (notes : list Note) (n : Note) :
  In n notes -> has_id x n = true ->
  exists note, find (has_id x) notes = Some note.
Proof.
  intros Hin Hn. destruct (find (has_id x) notes) as [note|] eqn:E.
  - exists note. reflexivity.
  - rewrite (find_none _ _ E n Hin) in Hn. discriminate.
Qed.

(** With distinct ids a path id selects at most one note. *)
Lemma has_id_unique (x : number) (notes : list Note) (n m : Note) :
  NoDup (ids notes) ->
  In n notes -> In m notes -> has_id x n = true -> has_id x m = true -> n = m.
Proof.
  intros Hnd Hn Hm En Em. pose proof (has_id_same x n m En Em) as Heq.
  clear En Em. induction notes as [|a l IH]; [contradiction|].
  cbn [ids map] in Hnd. inversion Hnd as [|? ? Hnotin Hnd']; subst.
  destruct Hn as [->|Hn], Hm as [->|Hm].
  - reflexivity.
  - elim Hnotin. rewrite Heq. apply in_map, Hm.
  - elim Hnotin. rewrite <- Heq. apply in_map, Hn.
  - apply IH; assumption.
Qed.

(** Removing what a path id matches, from a list it matches nothing in. *)
Lemma filter_no_match (x : number) (notes : list Note) :
  (forall n, In n notes -> has_id x n = false) ->
  filter (fun note => negb (has_id x note)) notes = notes.
Proof.
  induction notes as [|n ns IH]; intros H; simpl; [reflexivity|].
  rewrite (H n) by (left; reflexivity). simpl. f_equal.
  apply IH. intros m Hm. apply H. right. exact Hm.
Qed.

Lemma filter_removes (x : number) (notes : list Note) (n : Note) :
  In n (filter (fun note => negb (has_id x note)) notes) -> has_id x n = false.
Proof.
  intros H. apply filter_In in H. destruct H as [_ H].
  destruct (has_id x n); [discriminate|reflexivity].
Qed.

Lemma NoDup_ids_filter (f : Note -> bool) (notes : list Note) :
  NoDup (ids notes) -> NoDup (ids (filter f notes)).
Proof.
  unfold ids. induction notes as [|n ns IH]; intros H; simpl; [constructor|].
  inversion H as [|? ? Hnotin Hnd]; subst.
  destruct (f n); simpl; [|apply IH, Hnd].
  constructor; [|apply IH, Hnd].
  intros Hin. apply Hnotin. apply in_map_iff in Hin.
  destruct Hin as (m & Hid & Hm). apply filter_In in Hm.
  rewrite <- Hid. apply in_map. tauto.
Qed.

(** The replacement that PUT performs keeps every id where it was. *)
Lemma ids_replace (x : number) (u : Note) (notes : list Note) :
  (forall n, In n notes -> has_id x n = true -> Note.id u = Note.id n) ->
  ids (map (fun n => if has_id x n then u else n) notes) = ids notes.
Proof.
  unfold ids. induction notes as [|n ns IH]; intros H; simpl; [reflexivity|].
  f_equal.
  - destruct (has_id x n) eqn:E; [|reflexivity].
    apply H; [left; reflexivity | exact E].
  - apply IH. intros m Hm. apply H. right. exact Hm.
Qed.

Lemma seed_distinct (d1 d2 d3 : string) : NoDup (ids (seed d1 d2 d3)).
Proof.
  cbn. repeat constructor; cbn; intuition congruence.
Qed.

End Collection.


(** ** POST /api/notes *)

Section Create.

Variables (body : object) (now : string) (notes : list Note).

(** What a create with truthy content computes, spelled out. *)
Lemma createNote_ok :
  truthy (get body "content") = true ->
  createNote body now notes =
    (let note := Note.mk (generateId notes) (get body "content")
                         (or (get body "important") (Boolean false)) now in
     (Response 201 (json_note note), notes ++ [note])).
Proof. intros H. unfold createNote. rewrite H. reflexivity. Qed.

Lemma createNote_invalid :
  truthy (get body "content") = false ->
  createNote body now notes =
    (Response 400 (json_error "Content is required"), notes).
Proof. intros H. unfold createNote. rewrite H. reflexivity. Qed.

End Create.

(** C1, as the claim states it, fails: with [{content: "test",
    important: 0}] the body does supply a value for [important], the
    number 0, and the created note holds [false], which is not the
    body's value. *)
Lemma createNote_important_zero_is_not_kept :
  truthy (get body_zero "content") = true /\
  get body_zero "important" = Num (of_Z 0) /\
  fst (createNote body_zero later notes0) =
    Response 201 (json_note (Note.mk 4 (Str "test") (Boolean false) later)) /\
  Boolean false <> get body_zero "important".
Proof. repeat split. discriminate. Qed.

(** C1 (amended): a create whose body has a truthy [content] answers
    201 with the created note and appends that same note at the end of
    the collection; the note's id is one more than the largest id in the
    collection (1 when the collection is empty), its date is the clock
    reading of the call, and its [important] field is the body's value
    when that value is truthy, and [false] otherwise, which covers an
    omitted field and an explicit [false]. *)
Theorem createNote_appends_next_id (body : object) (now : string) (notes : list Note) :
  truthy (get body "content") = true ->
  exists note,
    createNote body now notes = (Response 201 (json_note note), notes ++ [note]) /\
    (notes = [] -> Note.id note = 1) /\
    (notes <> [] ->
     exists m, In m (ids notes) /\ (forall i, In i (ids notes) -> i <= m) /\
               Note.id note = m + 1) /\
    Note.content note = get body "content" /\
    (truthy (get body "important") = true ->
     Note.important note = get body "important") /\
    (truthy (get body "important") = false ->
     Note.important note = Boolean false) /\
    (get body "important" = Undefined -> Note.important note = Boolean false) /\
    (forall b, get body "important" = Boolean b -> Note.important note = Boolean b) /\
    Note.date note = now.
Proof.
  intros Hc. rewrite (createNote_ok body now notes Hc). cbv zeta.
  eexists. split; [reflexivity|]. cbn [Note.id Note.content Note.important Note.date].
  repeat split.
  - intros ->. reflexivity.
  - apply generateId_max.
  - intros Ht. unfold or. rewrite Ht. reflexivity.
  - intros Hf. unfold or. rewrite Hf. reflexivity.
  - intros ->. reflexivity.
  - intros [|] ->; reflexivity.
Qed.

(** The scenario of the specification: POST [{content: "test"}] on the
    seed gives id 4 and [important = false]. *)
Lemma createNote_appends_next_id_seed :
  truthy (get body_test "content") = true /\
  exists note,
    createNote body_test later notes0 =
      (Response 201 (json_note note), notes0 ++ [note]) /\
    (notes0 = [] -> Note.id note = 1) /\
    (notes0 <> [] ->
     exists m, In m (ids notes0) /\ (forall i, In i (ids notes0) -> i <= m) /\
               Note.id note = m + 1) /\
    Note.content note = get body_test "content" /\
    (truthy (get body_test "important") = true ->
     Note.important note = get body_test "important") /\
    (truthy (get body_test "important") = false ->
     Note.important note = Boolean false) /\
    (get body_test "important" = Undefined -> Note.important note = Boolean false) /\
    (forall b, get body_test "important" = Boolean b ->
               Note.important note = Boolean b) /\
    Note.date note = later.
Proof.
  split; [reflexivity|].
  apply (createNote_appends_next_id body_test later notes0). reflexivity.
Defined.

(** C10: on a create with truthy [content], the stored note's
    [important] is the body's value when that value is truthy and
    [false] otherwise: [false], 0, the empty string and [null] are all
    stored as [false], and a truthy value of any type is stored as it
    came, not turned into a boolean. *)
Theorem createNote_important_or_false (body : object) (now : string) (notes : list Note) :
  truthy (get body "content") = true ->
  exists note,
    fst (createNote body now notes) = Response 201 (json_note note) /\
    snd (createNote body now notes) = notes ++ [note] /\
    (truthy (get body "important") = true ->
     Note.important note = get body "important") /\
    (truthy (get body "important") = false ->
     Note.important note = Boolean false) /\
    (In (get body "important") [Boolean false; Num (of_Z 0); Str ""; Null] ->
     Note.important note = Boolean false) /\
    (forall s, s <> "" -> get body "important" = Str s ->
               Note.important note = Str s).
Proof.
  intros Hc. rewrite (createNote_ok body now notes Hc). cbv zeta.
  eexists. split; [reflexivity|]. split; [reflexivity|].
  cbn [Note.important]. unfold or. repeat split.
  - intros ->. reflexivity.
  - intros ->. reflexivity.
  - intros H. cbn [In] in H.
    destruct H as [<-|[<-|[<-|[<-|[]]]]]; reflexivity.
  - intros s Hs ->. cbn [truthy].
    destruct (String.eqb_spec s ""); [contradiction|reflexivity].
Qed.

(** [{content: "test", important: "yes"}] stores the string ["yes"]. *)
Lemma createNote_important_or_false_yes :
  truthy (get body_yes "content") = true /\
  exists note,
    fst (createNote body_yes later notes0) = Response 201 (json_note note) /\
    snd (createNote body_yes later notes0) = notes0 ++ [note] /\
    (truthy (get body_yes "important") = true ->
     Note.important note = get body_yes "important") /\
    (truthy (get body_yes "important") = false ->
     Note.important note = Boolean false) /\
    (In (get body_yes "important") [Boolean false; Num (of_Z 0); Str ""; Null] ->
     Note.important note = Boolean false) /\
    (forall s, s <> "" -> get body_yes "important" = Str s ->
               Note.important note = Str s).
Proof.
  split; [reflexivity|].
  apply (createNote_important_or_false body_yes later notes0). reflexivity.
Defined.

(** C4: a create whose body has no truthy [content] (the field is
    absent, or empty) answers 400 with [{error: "Content is required"}]
    and leaves the collection as it was. *)
Theorem createNote_without_content (body : object) (now : string) (notes : list Note) :
  truthy (get body "content") = false ->
  createNote body now notes =
    (Response 400 (json_error "Content is required"), notes) /\
  List.length (snd (createNote body now notes)) = List.length notes.
Proof.
  intros Hc. rewrite (createNote_invalid body now notes Hc).
  split; reflexivity.
Qed.

(** An empty object and [{content: ""}] are both turned down. *)
Lemma createNote_without_content_samples :
  (truthy (get [] "content") = false /\
   createNote [] later notes0 =
     (Response 400 (json_error "Content is required"), notes0) /\
   List.length (snd (createNote [] later notes0)) = List.length notes0) /\
  (truthy (get body_empty_content "content") = false /\
   createNote body_empty_content later notes0 =
     (Response 400 (json_error "Content is required"), notes0) /\
   List.length (snd (createNote body_empty_content later notes0)) = List.length notes0).
Proof.
  split; (split; [reflexivity|]).
  - apply (createNote_without_content [] later notes0). reflexivity.
  - apply (createNote_without_content body_empty_content later notes0). reflexivity.
Defined.

(** ** PUT /api/notes/:id on a missing note *)

(** C5: an update on an id that no note of the collection has answers
    404 with [{error: "Note not found"}] and leaves the collection as it
    was. *)
Theorem updateNote_missing (id : number) (body : object) (notes : list Note) :
  (forall n, In n notes -> has_id id n = false) ->
  updateNote id body notes =
    (Response 404 (json_error "Note not found"), notes).
Proof.
  intros H. unfold updateNote. rewrite (find_has_id_None id notes H). reflexivity.
Qed.

Lemma no_note_7 : forall n, In n notes0 -> has_id (of_Z 7) n = false.
Proof.
  intros n Hn. cbn in Hn. destruct Hn as [<-|[<-|[<-|[]]]]; reflexivity.
Defined.

(** PUT /api/notes/7 on the seed. *)
Lemma updateNote_missing_seed :
  (forall n, In n notes0 -> has_id (of_Z 7) n = false) /\
  updateNote (of_Z 7) body_important_true notes0 =
    (Response 404 (json_error "Note not found"), notes0).
Proof.
  split; [exact no_note_7|].
  apply (updateNote_missing (of_Z 7) body_important_true notes0 no_note_7).
Defined.

(** ** DELETE /api/notes/:id *)

Section Delete.

Variable id : number.

(** What is left after a delete: the notes the path id does not match. *)
Lemma deleteNote_In (notes : list Note) (n : Note) :
  In n (snd (deleteNote id notes)) <-> In n notes /\ has_id id n = false.
Proof.
  unfold deleteNote. cbn [snd]. rewrite filter_In.
  destruct (has_id id n); cbn; intuition congruence.
Qed.

Lemma deleteNote_absent (notes : list Note) :
  (forall n, In n notes -> has_id id n = false) ->
  deleteNote id notes = (Response 204 empty, notes).
Proof.
  intros H. unfold deleteNote. rewrite (filter_no_match id notes H). reflexivity.
Qed.

Lemma deleteNote_twice (notes : list Note) :
  deleteNote id (snd (deleteNote id notes)) =
    (Response 204 empty, snd (deleteNote id notes)).
Proof.
  apply deleteNote_absent. intros n Hn. apply deleteNote_In in Hn. tauto.
Qed.

End Delete.

(** C6: a delete answers 204 with an empty body whether or not a note
    has the id (when none has it the collection stays as it is), and a
    second delete of the same id answers 204 again and leaves the
    collection exactly as the first delete left it. *)
Theorem deleteNote_idempotent (id : number) (notes : list Note) :
  fst (deleteNote id notes) = Response 204 empty /\
  ((forall n, In n notes -> has_id id n = false) ->
   snd (deleteNote id notes) = notes) /\
  (forall n, In n (snd (deleteNote id notes)) <->
             In n notes /\ has_id id n = false) /\
  fst (deleteNote id (snd (deleteNote id notes))) = Response 204 empty /\
  snd (deleteNote id (snd (deleteNote id notes))) = snd (deleteNote id notes).
Proof.
  split; [reflexivity|]. split; [|split; [|split]].
  - intros H. rewrite (deleteNote_absent id notes H). reflexivity.
  - intros n. apply deleteNote_In.
  - reflexivity.
  - rewrite deleteNote_twice. reflexivity.
Qed.

(** DELETE /api/notes/2, twice, on the seed. *)
Lemma deleteNote_idempotent_seed :
  ids (snd (deleteNote (of_Z 2) notes0)) = [1; 3] /\
  fst (deleteNote (of_Z 2) (snd (deleteNote (of_Z 2) notes0))) =
    Response 204 empty /\
  snd (deleteNote (of_Z 2) (snd (deleteNote (of_Z 2) notes0))) =
    snd (deleteNote (of_Z 2) notes0).
Proof.
  split; [reflexivity|].
  apply (deleteNote_idempotent (of_Z 2) notes0).
Defined.

(** ** GET /api/notes/:id *)

Section Get.

Variables (id : number) (notes : list Note).

Lemma getNote_pure : snd (getNote id notes) = notes.
Proof. unfold getNote. destruct (find (has_id id) notes); reflexivity. Qed.

Lemma getNote_missing :
  (forall n, In n notes -> has_id id n = false) ->
  getNote id notes = (Response 404 (json_error "Note not found"), notes).
Proof.
  intros H. unfold getNote. rewrite (find_has_id_None id notes H). reflexivity.
Qed.

Lemma getNote_found (n : Note) :
  In n notes -> has_id id n = true ->
  exists note, In note notes /\ has_id id note = true /\
               getNote id notes = (Response 200 (json_note note), notes).
Proof.
  intros Hin Hn. destruct (find_has_id_Some id notes n Hin Hn) as [note E].
  exists note. unfold getNote. rewrite E.
  apply find_some in E. tauto.
Qed.

End Get.

(** C7: get-by-id never changes the collection; when some note has the
    id it answers 200 with a note of the collection that has this id
    (the one such note, when ids are distinct), and when no note has it
    it answers 404 with [{error: "Note not found"}]; so a get of an id
    right after its delete is always a 404. *)
Theorem getNote_found_or_404 (id : number) (notes : list Note) :
  snd (getNote id notes) = notes /\
  (forall n, In n notes -> has_id id n = true ->
     exists note, In note notes /\ has_id id note = true /\
                  fst (getNote id notes) = Response 200 (json_note note)) /\
  (forall n, NoDup (ids notes) -> In n notes -> has_id id n = true ->
     fst (getNote id notes) = Response 200 (json_note n)) /\
  ((forall n, In n notes -> has_id id n = false) ->
     fst (getNote id notes) = Response 404 (json_error "Note not found")) /\
  getNote id (snd (deleteNote id notes)) =
    (Response 404 (json_error "Note not found"), snd (deleteNote id notes)).
Proof.
  split; [apply getNote_pure|]. split; [|split; [|split]].
  - intros n Hin Hn.
    destruct (getNote_found id notes n Hin Hn) as (note & H1 & H2 & E).
    exists note. rewrite E. auto.
  - intros n Hnd Hin Hn.
    destruct (getNote_found id notes n Hin Hn) as (note & H1 & H2 & E).
    rewrite E. cbn [fst].
    rewrite (has_id_unique id notes n note Hnd Hin H1 Hn H2). reflexivity.
  - intros H. rewrite (getNote_missing id notes H). reflexivity.
  - apply getNote_missing. intros n Hn. apply deleteNote_In in Hn. tauto.
Qed.

(** GET /api/notes/2 on the seed, and again after DELETE /api/notes/2. *)
Lemma getNote_found_or_404_seed :
  fst (getNote (of_Z 2) notes0) =
    Response 200 (json_note (Note.mk 2 (Str "Browser can execute only JavaScript")
                                     (Boolean false) startup)) /\
  getNote (of_Z 2) (snd (deleteNote (of_Z 2) notes0)) =
    (Response 404 (json_error "Note not found"), snd (deleteNote (of_Z 2) notes0)).
Proof.
  split; [reflexivity|].
  apply (getNote_found_or_404 (of_Z 2) notes0).
Defined.

(** ** A path id that is not a number *)

(** C9: a path segment that [Number] turns into [NaN] is an id that no
    note has: get-by-id and update answer 404 with
    [{error: "Note not found"}], delete answers 204, and in all three
    the collection stays as it is. *)
Theorem NaN_id_matches_nothing (body : object) (notes : list Note) :
  (forall n, In n notes -> has_id NaN n = false) /\
  getNote NaN notes = (Response 404 (json_error "Note not found"), notes) /\
  updateNote NaN body notes = (Response 404 (json_error "Note not found"), notes) /\
  deleteNote NaN notes = (Response 204 empty, notes).
Proof.
  assert (H : forall n, In n notes -> has_id NaN n = false)
    by (intros n _; apply has_id_NaN).
  split; [exact H|]. split; [|split].
  - apply getNote_missing, H.
  - unfold updateNote. rewrite (find_has_id_None NaN notes H). reflexivity.
  - apply deleteNote_absent, H.
Qed.

(** ** Create, then delete what was created *)

(** Removing a fresh id from a collection extended by one note carrying
    it gives the collection back. *)
Lemma filter_drops_appended (notes : list Note) (note : Note) :
  ~ In (Note.id note) (ids notes) ->
  filter (fun n => negb (has_id (of_Z (Note.id note)) n)) (notes ++ [note]) = notes.
Proof.
  intros Hfresh. rewrite filter_app. cbn [filter].
  rewrite has_id_of_Z, Z.eqb_refl. cbn [negb].
  rewrite app_nil_r. apply filter_no_match.
  intros n Hn. rewrite has_id_of_Z. apply Z.eqb_neq.
  intros E. apply Hfresh. rewrite <- E. apply in_map, Hn.
Qed.

(** C8: on a collection with pairwise distinct ids, a create with truthy
    content followed by a delete of the id that the create returned
    leaves exactly the notes that were there before, in their order. *)
Theorem create_then_delete_restores (body : object) (now : string) (notes : list Note) :
  NoDup (ids notes) ->
  truthy (get body "content") = true ->
  exists note,
    fst (createNote body now notes) = Response 201 (json_note note) /\
    deleteNote (of_Z (Note.id note)) (snd (createNote body now notes)) =
      (Response 204 empty, notes).
Proof.
  intros _ Hc. rewrite (createNote_ok body now notes Hc). cbv zeta.
  eexists. split; [reflexivity|]. cbn [snd]. unfold deleteNote. f_equal.
  apply filter_drops_appended. cbn [Note.id]. apply generateId_fresh.
Qed.

(** The scenario of the specification: POST [{content: "test"}], then
    DELETE /api/notes/4, leaves the three seed notes. *)
Lemma create_then_delete_restores_seed :
  NoDup (ids notes0) /\
  truthy (get body_test "content") = true /\
  exists note,
    fst (createNote body_test later notes0) = Response 201 (json_note note) /\
    deleteNote (of_Z (Note.id note)) (snd (createNote body_test later notes0)) =
      (Response 204 empty, notes0).
Proof.
  split; [apply seed_distinct|]. split; [reflexivity|].
  apply (create_then_delete_restores body_test later notes0);
    [apply seed_distinct | reflexivity].
Defined.

(** ** Distinct ids *)

Lemma NoDup_snoc (l : list Z) (x : Z) : NoDup l -> ~ In x l -> NoDup (l ++ [x]).
Proof.
  induction l as [|a l IH]; intros Hnd Hx; cbn.
  - constructor; [tauto|constructor].
  - inversion Hnd as [|? ? Ha Hl]; subst. constructor.
    + rewrite in_app_iff. cbn. intros [H|[H|[]]]; [tauto|].
      apply Hx. left. symmetry. exact H.
    + apply IH; [exact Hl|]. intros H. apply Hx. right. exact H.
Qed.

Lemma updateNote_ids (id : number) (body : object) (notes : list Note) :
  ids (snd (updateNote id body notes)) = ids notes.
Proof.
  unfold updateNote. destruct (find (has_id id) notes) as [note|] eqn:E;
    [|reflexivity].
  cbn [snd]. apply ids_replace. intros n _ Hn. unfold updatedNote. cbn [Note.id].
  apply find_some in E. apply (has_id_same id note n); tauto.
Qed.

Lemma handle_distinct (req : request) (notes : list Note) :
  NoDup (ids notes) -> NoDup (ids (snd (handle req notes))).
Proof.
  intros Hnd. destruct req as [|id|body now|id body|id]; cbn [handle].
  - exact Hnd.
  - rewrite getNote_pure. exact Hnd.
  - unfold createNote. destruct (negb (truthy (get body "content"))); [exact Hnd|].
    cbn [snd]. unfold ids. rewrite map_app. cbn [map Note.id].
    apply NoDup_snoc; [exact Hnd | apply generateId_fresh].
  - rewrite updateNote_ids. exact Hnd.
  - apply NoDup_ids_filter, Hnd.
Qed.

(** Every collection the service can hold has pairwise distinct ids. *)
Lemma reachable_distinct (notes : list Note) : reachable notes -> NoDup (ids notes).
Proof.
  induction 1 as [d1 d2 d3|req notes _ IH].
  - apply seed_distinct.
  - apply handle_distinct, IH.
Qed.

(** C2: the seed has pairwise distinct ids, and from a collection with
    pairwise distinct ids every request (list, get, create, update,
    delete) leaves a collection with pairwise distinct ids; after a
    create with truthy content the id of the returned note occurs exactly
    once in the collection. *)
Theorem distinct_ids_invariant (req : request) (notes : list Note) :
  NoDup (ids notes) ->
  NoDup (ids (snd (handle req notes))) /\
  (forall body now, req = POST_notes body now ->
     truthy (get body "content") = true ->
     exists note,
       fst (handle req notes) = Response 201 (json_note note) /\
       In note (snd (handle req notes)) /\
       count_occ Z.eq_dec (ids (snd (handle req notes))) (Note.id note) = 1%nat).
Proof.
  intros Hnd. split; [apply handle_distinct, Hnd|].
  intros body now -> Hc. cbn [handle].
  rewrite (createNote_ok body now notes Hc). cbv zeta.
  eexists. split; [reflexivity|]. cbn [snd Note.id]. split.
  - apply in_or_app. right. left. reflexivity.
  - unfold ids. rewrite map_app, count_occ_app. cbn [map Note.id count_occ].
    destruct (Z.eq_dec (generateId notes) (generateId notes)); [|congruence].
    fold (ids notes).
    rewrite (proj1 (count_occ_not_In Z.eq_dec _ _) (generateId_fresh notes)).
    reflexivity.
Qed.

(** POST [{content: "test"}] on the seed: ids 1, 2, 3, 4. *)
Lemma distinct_ids_invariant_seed :
  NoDup (ids notes0) /\
  ids (snd (handle (POST_notes body_test later) notes0)) = [1; 2; 3; 4] /\
  NoDup (ids (snd (handle (POST_notes body_test later) notes0))) /\
  (forall body now, POST_notes body_test later = POST_notes body now ->
     truthy (get body "content") = true ->
     exists note,
       fst (handle (POST_notes body_test later) notes0) =
         Response 201 (json_note note) /\
       In note (snd (handle (POST_notes body_test later) notes0)) /\
       count_occ Z.eq_dec (ids (snd (handle (POST_notes body_test later) notes0)))
                 (Note.id note) = 1%nat).
Proof.
  split; [apply seed_distinct|]. split; [reflexivity|].
  apply (distinct_ids_invariant (POST_notes body_test later) notes0).
  apply seed_distinct.
Defined.

(** ** PUT /api/notes/:id on a note of the collection *)

Section Update.

Variables (id : number) (body : object).

Lemma updateNote_ok (notes : list Note) (n : Note) :
  In n notes -> has_id id n = true ->
  exists note,
    In note notes /\ has_id id note = true /\
    updateNote id body notes =
      (Response 200 (json_note (updatedNote note body)),
       map (fun m => if has_id id m then updatedNote note body else m) notes).
Proof.
  intros Hin Hn. destruct (find_has_id_Some id notes n Hin Hn) as [note E].
  exists note. unfold updateNote. rewrite E.
  apply find_some in E. split; [tauto|]. split; [tauto|]. reflexivity.
Qed.

(** With distinct ids, the replacement touches one position only. *)
Lemma replace_one_position (notes : list Note) (note u : Note) :
  NoDup (ids notes) -> In note notes -> has_id id note = true ->
  exists i,
    nth_error notes i = Some note /\
    nth_error (map (fun m => if has_id id m then u else m) notes) i = Some u /\
    forall j, j <> i ->
      nth_error (map (fun m => if has_id id m then u else m) notes) j =
      nth_error notes j.
Proof.
  intros Hnd Hin Hid. destruct (In_nth_error notes note Hin) as [i Hi].
  exists i. split; [exact Hi|]. split.
  - rewrite nth_error_map, Hi. cbn [option_map]. rewrite Hid. reflexivity.
  - intros j Hj. rewrite nth_error_map.
    destruct (nth_error notes j) as [m|] eqn:Ej; [|reflexivity]. cbn [option_map].
    destruct (has_id id m) eqn:Em; [|reflexivity].
    elim Hj.
    assert (m = note) as ->
      by (apply (has_id_unique id notes); eauto using nth_error_In).
    apply (proj1 (NoDup_nth_error notes)).
    + apply (NoDup_map_inv Note.id). exact Hnd.
    + apply nth_error_Some. congruence.
    + congruence.
Qed.

End Update.

(** C3: an update on an id that a note of the collection has answers
    200 with the updated note, which has the id, content and date of the
    note it was built from; its [important] is the body's value when the
    body gives one (an explicit [false] included) and the old value
    otherwise.  The collection keeps its length, every note with another
    id stays as and where it is, and, ids being distinct, the updated
    note takes the place of the old one while every other position is
    unchanged. *)
Theorem updateNote_replaces_importance
    (id : number) (body : object) (notes : list Note) (n : Note) :
  In n notes -> has_id id n = true ->
  exists note result notes',
    updateNote id body notes = (Response 200 (json_note result), notes') /\
    In note notes /\ has_id id note = true /\
    Note.id result = Note.id note /\
    Note.content result = Note.content note /\
    Note.date result = Note.date note /\
    (defined (get body "important") = true ->
     Note.important result = get body "important") /\
    (get body "important" = Boolean false ->
     Note.important result = Boolean false) /\
    (get body "important" = Undefined ->
     Note.important result = Note.important note) /\
    List.length notes' = List.length notes /\
    (forall i m, nth_error notes i = Some m -> has_id id m = false ->
                 nth_error notes' i = Some m) /\
    (forall i m, nth_error notes i = Some m -> has_id id m = true ->
                 nth_error notes' i = Some result) /\
    (NoDup (ids notes) ->
     note = n /\
     exists i,
       nth_error notes i = Some note /\
       nth_error notes' i = Some result /\
       forall j, j <> i -> nth_error notes' j = nth_error notes j).
Proof.
  intros Hin Hn.
  destruct (updateNote_ok id body notes n Hin Hn) as (note & Hnote & Hid & E).
  exists note, (updatedNote note body). eexists. split; [exact E|].
  split; [exact Hnote|]. split; [exact Hid|].
  unfold updatedNote at 1 2 3 4 5 6. cbn [Note.id Note.content Note.date Note.important].
  repeat (split; [reflexivity|]).
  split; [intros ->; reflexivity|].
  split; [intros ->; reflexivity|].
  split; [intros ->; reflexivity|].
  split; [apply length_map|].
  split; [|split].
  - intros i m Hi Hm. rewrite nth_error_map, Hi. cbn [option_map]. rewrite Hm. reflexivity.
  - intros i m Hi Hm. rewrite nth_error_map, Hi. cbn [option_map]. rewrite Hm. reflexivity.
  - intros Hnd. split.
    + apply (has_id_unique id notes); assumption.
    + apply replace_one_position; assumption.
Qed.

(** The scenario of the specification: PUT /api/notes/2 with
    [{important: true}] on the seed. *)
Lemma updateNote_replaces_importance_seed :
  updateNote (of_Z 2) body_important_true notes0 =
    (Response 200
       (json_note (Note.mk 2 (Str "Browser can execute only JavaScript")
                           (Boolean true) startup)),
     [ Note.mk 1 (Str "HTML is easy") (Boolean true) startup;
       Note.mk 2 (Str "Browser can execute only JavaScript") (Boolean true) startup;
       Note.mk 3 (Str "GET and POST are the most important methods of HTTP protocol")
               (Boolean true) startup ]) /\
  exists note result notes',
    updateNote (of_Z 2) body_important_true notes0 =
      (Response 200 (json_note result), notes') /\
    In note notes0 /\ has_id (of_Z 2) note = true /\
    Note.id result = Note.id note /\
    Note.content result = Note.content note /\
    Note.date result = Note.date note.
Proof.
  split; [reflexivity|].
  destruct (updateNote_replaces_importance (of_Z 2) body_important_true notes0
              (Note.mk 2 (Str "Browser can execute only JavaScript")
                       (Boolean false) startup))
    as (note & u & notes' & H1 & H2 & H3 & H4 & H5 & H6 & _).
  - right. left. reflexivity.
  - reflexivity.
  - exists note, u, notes'. repeat split; assumption.
Defined.

(** * Further properties of the handlers *)

(** ** Looking up by id *)

Section Lookup.

Variable id : number.

Lemma find_app_found (l l' : list Note) (n : Note) :
  find (has_id id) l = Some n -> find (has_id id) (l ++ l') = Some n.
Proof.
  induction l as [|a l IH]; cbn [find app]; [discriminate|].
  destruct (has_id id a); [trivial|exact IH].
Qed.

Lemma find_app_missing (l l' : list Note) :
  find (has_id id) l = None -> find (has_id id) (l ++ l') = find (has_id id) l'.
Proof.
  induction l as [|a l IH]; cbn [find app]; [reflexivity|].
  destruct (has_id id a); [discriminate|exact IH].
Qed.

(** The first match of the replaced list is the replacement. *)
Lemma find_replaced (notes : list Note) (note u : Note) :
  find (has_id id) notes = Some note -> has_id id u = true ->
  find (has_id id) (map (fun m => if has_id id m then u else m) notes) = Some u.
Proof.
  intros E Hu. induction notes as [|a l IH]; cbn [find map] in *; [discriminate|].
  destruct (has_id id a) eqn:Ea.
  - rewrite Hu. reflexivity.
  - rewrite Ea. apply IH, E.
Qed.

(** Removing the matches of [id'] keeps the first match of [id], as long
    as [id'] matches nothing that [id] matches. *)
Lemma find_filter_other (id' : number) (notes : list Note) :
  (forall n, In n notes -> has_id id n = true -> has_id id' n = false) ->
  find (has_id id) (filter (fun note => negb (has_id id' note)) notes) =
  find (has_id id) notes.
Proof.
  induction notes as [|a l IH]; intros H; cbn [find filter]; [reflexivity|].
  assert (IH' := IH (fun n Hn => H n (or_intror Hn))).
  destruct (has_id id a) eqn:Ea.
  - rewrite (H a (or_introl eq_refl) Ea). cbn [negb find]. rewrite Ea. reflexivity.
  - destruct (has_id id' a); cbn [negb find]; [|rewrite Ea]; exact IH'.
Qed.

Lemma has_id_updatedNote (note : Note) (body : object) :
  has_id id (updatedNote note body) = has_id id note.
Proof. reflexivity. Qed.

End Lookup.

Lemma updatedNote_again (note : Note) (body : object) :
  updatedNote (updatedNote note body) body = updatedNote note body.
Proof.
  unfold updatedNote. cbn [Note.id Note.content Note.important Note.date].
  destruct (defined (get body "important")); reflexivity.
Qed.

Lemma updatedNote_unchanged (note : Note) (body : object) :
  get body "important" = Undefined -> updatedNote note body = note.
Proof. intros H. unfold updatedNote. rewrite H. destruct note; reflexivity. Qed.

Lemma generateId_misses (notes : list Note) (n : Note) :
  In n notes -> has_id (of_Z (generateId notes)) n = false.
Proof.
  intros Hn. rewrite has_id_of_Z. apply Z.eqb_neq.
  pose proof (generateId_gt notes (Note.id n) (in_map Note.id notes n Hn)). lia.
Qed.

(** X1: a get of the id that a create returned, right after the create,
    answers 200 with the created note, whatever the collection was. *)
Theorem created_note_is_found (body : object) (now : string) (notes : list Note) :
  truthy (get body "content") = true ->
  exists note,
    fst (createNote body now notes) = Response 201 (json_note note) /\
    fst (getNote (of_Z (Note.id note)) (snd (createNote body now notes))) =
      Response 200 (json_note note).
Proof.
  intros Hc. rewrite (createNote_ok body now notes Hc). cbv zeta.
  eexists. split; [reflexivity|]. cbn [snd Note.id]. unfold getNote.
  rewrite find_app_missing
    by (apply find_has_id_None; intros n Hn; apply generateId_misses, Hn).
  cbn [find]. rewrite has_id_of_Z. cbn [Note.id]. rewrite Z.eqb_refl. reflexivity.
Qed.

Lemma created_note_is_found_seed :
  truthy (get body_test "content") = true /\
  exists note,
    fst (createNote body_test later notes0) = Response 201 (json_note note) /\
    fst (getNote (of_Z (Note.id note)) (snd (createNote body_test later notes0))) =
      Response 200 (json_note note).
Proof.
  split; [reflexivity|].
  apply (created_note_is_found body_test later notes0). reflexivity.
Defined.

(** X2: a create leaves every other lookup as it was: for a path id
    other than the id the create assigns, get-by-id answers after the
    create what it answered before. *)
Theorem create_keeps_lookups
    (id : number) (body : object) (now : string) (notes : list Note) :
  strict_eq (of_Z (generateId notes)) id = false ->
  fst (getNote id (snd (createNote body now notes))) = fst (getNote id notes).
Proof.
  intros Hid. unfold createNote.
  destruct (negb (truthy (get body "content"))); [reflexivity|].
  cbn [snd]. unfold getNote.
  destruct (find (has_id id) notes) as [n|] eqn:E.
  - rewrite (find_app_found id notes _ n E). reflexivity.
  - rewrite (find_app_missing id notes _ E). cbn [find].
    unfold has_id at 1. cbn [Note.id]. rewrite Hid. reflexivity.
Qed.

Lemma create_keeps_lookups_seed :
  strict_eq (of_Z (generateId notes0)) (of_Z 2) = false /\
  fst (getNote (of_Z 2) (snd (createNote body_test later notes0))) =
    fst (getNote (of_Z 2) notes0).
Proof.
  split; [reflexivity|].
  apply (create_keeps_lookups (of_Z 2) body_test later notes0). reflexivity.
Defined.

(** X3: a get of an id right after a successful update of that id
    answers 200 with the very note the update returned. *)
Theorem updated_note_is_found
    (id : number) (body : object) (notes : list Note) (n : Note) :
  In n notes -> has_id id n = true ->
  exists result,
    fst (updateNote id body notes) = Response 200 (json_note result) /\
    fst (getNote id (snd (updateNote id body notes))) =
      Response 200 (json_note result).
Proof.
  intros Hin Hn. destruct (find_has_id_Some id notes n Hin Hn) as [note E].
  exists (updatedNote note body). unfold updateNote. rewrite E. cbn [fst snd].
  split; [reflexivity|]. unfold getNote.
  rewrite (find_replaced id notes note (updatedNote note body) E); [reflexivity|].
  rewrite has_id_updatedNote. apply find_some in E. tauto.
Qed.

Lemma updated_note_is_found_seed :
  exists result,
    fst (updateNote (of_Z 2) body_important_true notes0) =
      Response 200 (json_note result) /\
    fst (getNote (of_Z 2) (snd (updateNote (of_Z 2) body_important_true notes0))) =
      Response 200 (json_note result).
Proof.
  apply (updated_note_is_found (of_Z 2) body_important_true notes0
           (Note.mk 2 (Str "Browser can execute only JavaScript")
                    (Boolean false) startup)).
  - right. left. reflexivity.
  - reflexivity.
Defined.

(** X4: update is idempotent: the same PUT sent a second time gives the
    same response and leaves the collection as the first one left it,
    whether the id is present or not. *)
Theorem updateNote_idempotent (id : number) (body : object) (notes : list Note) :
  updateNote id body (snd (updateNote id body notes)) = updateNote id body notes.
Proof.
  unfold updateNote at 2 3.
  destruct (find (has_id id) notes) as [note|] eqn:E; cbn [snd].
  - assert (Hu : has_id id (updatedNote note body) = true)
      by (rewrite has_id_updatedNote; apply find_some in E; tauto).
    unfold updateNote.
    rewrite (find_replaced id notes note (updatedNote note body) E Hu).
    rewrite updatedNote_again, map_map. f_equal.
    apply map_ext. intros m. destruct (has_id id m) eqn:Em.
    + rewrite Hu. reflexivity.
    + rewrite Em. reflexivity.
  - unfold updateNote. rewrite E. reflexivity.
Qed.

(** X5: on a collection with distinct ids, an update whose body has no
    [important] answers 200 with the stored note and changes nothing. *)
Theorem updateNote_without_important
    (id : number) (body : object) (notes : list Note) (n : Note) :
  NoDup (ids notes) ->
  get body "important" = Undefined ->
  In n notes -> has_id id n = true ->
  updateNote id body notes = (Response 200 (json_note n), notes).
Proof.
  intros Hnd Hb Hin Hn.
  destruct (updateNote_ok id body notes n Hin Hn) as (note & Hnote & Hid & ->).
  assert (note = n) as -> by (apply (has_id_unique id notes); assumption).
  rewrite (updatedNote_unchanged n body Hb). f_equal.
  rewrite <- (map_id notes) at 2. apply map_ext_in.
  intros m Hm. destruct (has_id id m) eqn:Em; [|reflexivity].
  apply (has_id_unique id notes); assumption.
Qed.

Lemma updateNote_without_important_seed :
  updateNote (of_Z 2) [] notes0 =
    (Response 200 (json_note (Note.mk 2 (Str "Browser can execute only JavaScript")
                                      (Boolean false) startup)),
     notes0).
Proof.
  apply (updateNote_without_important (of_Z 2) [] notes0).
  - apply seed_distinct.
  - reflexivity.
  - right. left. reflexivity.
  - reflexivity.
Defined.

(** ** Deleting *)

(** With distinct ids, a path id matches nothing around the note it
    matches. *)
Lemma no_match_around (id : number) (l1 l2 : list Note) (n : Note) :
  NoDup (ids (l1 ++ n :: l2)) -> has_id id n = true ->
  forall m, In m (l1 ++ l2) -> has_id id m = false.
Proof.
  intros Hnd Hn m Hm. destruct (has_id id m) eqn:Em; [|reflexivity].
  assert (Hmn : m = n).
  { apply (has_id_unique id (l1 ++ n :: l2)); try assumption.
    - apply in_app_iff in Hm. apply in_app_iff. cbn. tauto.
    - apply in_app_iff. cbn. tauto. }
  subst m. apply NoDup_map_inv, NoDup_remove_2 in Hnd. contradiction.
Qed.

Lemma filter_middle (id : number) (l1 l2 : list Note) (n : Note) :
  NoDup (ids (l1 ++ n :: l2)) -> has_id id n = true ->
  filter (fun note => negb (has_id id note)) (l1 ++ n :: l2) = l1 ++ l2.
Proof.
  intros Hnd Hn. rewrite filter_app. cbn [filter]. rewrite Hn. cbn [negb].
  rewrite <- filter_app. apply filter_no_match.
  apply (no_match_around id l1 l2 n Hnd Hn).
Qed.

(** X6: on a collection with distinct ids, deleting the id of a note
    that is present removes exactly that note: the notes before it and
    the notes after it stay, in their order, and the collection is one
    shorter. *)
Theorem deleteNote_removes_one (id : number) (notes : list Note) (n : Note) :
  NoDup (ids notes) -> In n notes -> has_id id n = true ->
  exists l1 l2,
    notes = l1 ++ n :: l2 /\
    deleteNote id notes = (Response 204 empty, l1 ++ l2) /\
    S (List.length (snd (deleteNote id notes))) = List.length notes.
Proof.
  intros Hnd Hin Hn. destruct (in_split n notes Hin) as (l1 & l2 & ->).
  exists l1, l2. split; [reflexivity|].
  unfold deleteNote. cbn [snd]. rewrite (filter_middle id l1 l2 n Hnd Hn).
  split; [reflexivity|].
  rewrite !length_app. cbn [List.length]. lia.
Qed.

Lemma deleteNote_removes_one_seed :
  exists l1 l2,
    notes0 = l1 ++ Note.mk 2 (Str "Browser can execute only JavaScript")
                           (Boolean false) startup :: l2 /\
    deleteNote (of_Z 2) notes0 = (Response 204 empty, l1 ++ l2) /\
    S (List.length (snd (deleteNote (of_Z 2) notes0))) = List.length notes0.
Proof.
  apply (deleteNote_removes_one (of_Z 2) notes0).
  - apply seed_distinct.
  - right. left. reflexivity.
  - reflexivity.
Defined.

(** X7: a delete leaves the lookups of other ids as they were: when the
    deleted id matches none of the notes that [id] matches, get-by-id of
    [id] answers after the delete what it answered before. *)
Theorem delete_keeps_lookups (id id' : number) (notes : list Note) :
  (forall n, In n notes -> has_id id n = true -> has_id id' n = false) ->
  fst (getNote id (snd (deleteNote id' notes))) = fst (getNote id notes).
Proof.
  intros H. unfold deleteNote, getNote. cbn [snd].
  rewrite (find_filter_other id id' notes H).
  destruct (find (has_id id) notes); reflexivity.
Qed.

Lemma seed_2_is_not_3 :
  forall n, In n notes0 -> has_id (of_Z 2) n = true -> has_id (of_Z 3) n = false.
Proof.
  intros n Hn. cbn in Hn.
  destruct Hn as [<-|[<-|[<-|[]]]]; intros H; try reflexivity; discriminate H.
Defined.

Lemma delete_keeps_lookups_seed :
  fst (getNote (of_Z 2) (snd (deleteNote (of_Z 3) notes0))) =
    fst (getNote (of_Z 2) notes0).
Proof.
  apply (delete_keeps_lookups (of_Z 2) (of_Z 3) notes0 seed_2_is_not_3).
Defined.

(** X8: deletes commute: two deletes leave the same collection in
    either order. *)
Theorem deleteNote_commutes (id id' : number) (notes : list Note) :
  snd (deleteNote id (snd (deleteNote id' notes))) =
  snd (deleteNote id' (snd (deleteNote id notes))).
Proof.
  unfold deleteNote. cbn [snd].
  induction notes as [|a l IH]; cbn [filter]; [reflexivity|].
  destruct (has_id id a) eqn:Ea, (has_id id' a) eqn:Ea';
    cbn [negb filter]; rewrite ?Ea, ?Ea'; cbn [negb]; rewrite IH; reflexivity.
Qed.

(** X9: ids are handed out again: after a create and a delete of the id
    it returned, the next create returns that same id. *)
Theorem freed_id_is_reused
    (body body' : object) (now now' : string) (notes : list Note) :
  truthy (get body "content") = true ->
  truthy (get body' "content") = true ->
  exists note note',
    fst (createNote body now notes) = Response 201 (json_note note) /\
    fst (createNote body' now'
           (snd (deleteNote (of_Z (Note.id note))
                            (snd (createNote body now notes))))) =
      Response 201 (json_note note') /\
    Note.id note' = Note.id note.
Proof.
  intros Hc Hc'. rewrite (createNote_ok body now notes Hc). cbv zeta.
  eexists. eexists. split; [reflexivity|]. cbn [snd]. unfold deleteNote. cbn [snd].
  rewrite filter_drops_appended by (cbn [Note.id]; apply generateId_fresh).
  rewrite (createNote_ok body' now' notes Hc'). cbv zeta. cbn [fst].
  split; reflexivity.
Qed.

Lemma freed_id_is_reused_seed :
  exists note note',
    fst (createNote body_test later notes0) = Response 201 (json_note note) /\
    fst (createNote body_yes later
           (snd (deleteNote (of_Z (Note.id note))
                            (snd (createNote body_test later notes0))))) =
      Response 201 (json_note note') /\
    Note.id note' = Note.id note.
Proof.
  apply (freed_id_is_reused body_test body_yes later later notes0); reflexivity.
Defined.

(** ** The size of the collection *)

Lemma deleteNote_length (id : number) (notes : list Note) :
  (List.length (snd (deleteNote id notes)) <= List.length notes)%nat.
Proof. unfold deleteNote. cbn [snd]. apply filter_length_le. Qed.

(** X10: only a create can make the collection longer, by one note, and
    only a delete can make it shorter, by one note when the ids are
    distinct: list, get and update keep its length, a create adds one
    note exactly when the content is truthy. *)
Theorem handle_length (req : request) (notes : list Note) :
  (List.length (snd (handle req notes)) <= S (List.length notes))%nat /\
  ((forall id, req <> DELETE_note id) ->
     (List.length notes <= List.length (snd (handle req notes)))%nat) /\
  ((forall body now, req <> POST_notes body now) ->
     (List.length (snd (handle req notes)) <= List.length notes)%nat) /\
  (forall body now, req = POST_notes body now ->
     List.length (snd (handle req notes)) =
     if truthy (get body "content") then S (List.length notes)
     else List.length notes) /\
  (NoDup (ids notes) ->
     (List.length notes <= S (List.length (snd (handle req notes))))%nat).
Proof.
  assert (Hpost : forall body now,
             List.length (snd (createNote body now notes)) =
             if truthy (get body "content") then S (List.length notes)
             else List.length notes).
  { intros body now. unfold createNote.
    destruct (truthy (get body "content")); cbn [negb snd]; [|reflexivity].
    rewrite length_app. cbn [List.length]. lia. }
  assert (Hput : forall id body,
             List.length (snd (updateNote id body notes)) = List.length notes).
  { intros id body. unfold updateNote.
    destruct (find (has_id id) notes); cbn [snd]; [apply length_map|reflexivity]. }
  destruct req as [|id|body now|id body|id]; cbn [handle].
  - cbn [getNotes snd]. repeat split; intros; try lia. discriminate.
  - rewrite getNote_pure. repeat split; intros; try lia. discriminate.
  - rewrite Hpost. destruct (truthy (get body "content")) eqn:E.
    + repeat split; intros; try lia.
      * exfalso. eapply H. reflexivity.
      * injection H as <- _. rewrite E. reflexivity.
    + repeat split; intros; try lia.
      injection H as <- _. rewrite E. reflexivity.
  - rewrite Hput. repeat split; intros; try lia. discriminate.
  - pose proof (deleteNote_length id notes) as Hle.
    repeat split; intros; try lia.
    + exfalso. eapply H. reflexivity.
    + discriminate.
    + destruct (find (has_id id) notes) as [n|] eqn:E.
      * apply find_some in E. destruct E as [Hin Hn].
        destruct (in_split n notes Hin) as (l1 & l2 & ->).
        unfold deleteNote. cbn [snd]. rewrite (filter_middle id l1 l2 n H Hn).
        rewrite !length_app. cbn [List.length]. lia.
      * rewrite (deleteNote_absent id notes (find_none _ _ E)). cbn [snd]. lia.
Qed.

(** ** Invariants of the collection *)

Section Increasing.

Lemma increasing_snoc (l : list Z) (x : Z) :
  StronglySorted Z.lt l -> (forall i, In i l -> i < x) ->
  StronglySorted Z.lt (l ++ [x]).
Proof.
  induction l as [|a l IH]; intros Hs Hx; cbn.
  - repeat constructor.
  - apply StronglySorted_inv in Hs. destruct Hs as [Hs Ha]. constructor.
    + apply IH; [exact Hs|]. intros i Hi. apply Hx. right. exact Hi.
    + apply Forall_app. split; [exact Ha|].
      constructor; [|constructor]. apply Hx. left. reflexivity.
Qed.

Lemma increasing_snoc_inv (l : list Z) (x : Z) :
  StronglySorted Z.lt (l ++ [x]) -> forall i, In i l -> i < x.
Proof.
  induction l as [|a l IH]; intros Hs i Hi; [contradiction|].
  cbn in Hs. apply StronglySorted_inv in Hs. destruct Hs as [Hs Ha].
  destruct Hi as [<-|Hi].
  - rewrite Forall_forall in Ha. apply Ha, in_app_iff. right. left. reflexivity.
  - apply IH; assumption.
Qed.

Lemma increasing_filter (f : Note -> bool) (notes : list Note) :
  StronglySorted Z.lt (ids notes) -> StronglySorted Z.lt (ids (filter f notes)).
Proof.
  unfold ids. induction notes as [|a l IH]; intros Hs; cbn [filter map];
    [constructor|].
  cbn [map] in Hs. apply StronglySorted_inv in Hs. destruct Hs as [Hs Ha].
  destruct (f a); [|apply IH, Hs]. cbn [map]. constructor; [apply IH, Hs|].
  rewrite Forall_forall in *. intros i Hi. apply Ha.
  apply in_map_iff in Hi. destruct Hi as (m & <- & Hm).
  apply in_map. apply filter_In in Hm. tauto.
Qed.

Lemma handle_increasing (req : request) (notes : list Note) :
  StronglySorted Z.lt (ids notes) ->
  StronglySorted Z.lt (ids (snd (handle req notes))).
Proof.
  intros Hs. destruct req as [|id|body now|id body|id]; cbn [handle].
  - exact Hs.
  - rewrite getNote_pure. exact Hs.
  - unfold createNote. destruct (negb (truthy (get body "content"))); [exact Hs|].
    cbn [snd]. unfold ids. rewrite map_app. cbn [map Note.id].
    apply increasing_snoc; [exact Hs | apply generateId_gt].
  - rewrite updateNote_ids. exact Hs.
  - apply increasing_filter, Hs.
Qed.

Lemma reachable_increasing (notes : list Note) :
  reachable notes -> StronglySorted Z.lt (ids notes).
Proof.
  induction 1 as [d1 d2 d3|req notes _ IH].
  - cbn. repeat constructor; lia.
  - apply handle_increasing, IH.
Qed.

End Increasing.

(** X11: in every collection the service can hold the notes stand in
    strictly increasing order of id, so the largest id is the id of the
    last note and the next create assigns the last note's id plus one. *)
Theorem reachable_ids_increase (notes : list Note) :
  reachable notes ->
  StronglySorted Z.lt (ids notes) /\
  (forall l n, notes = l ++ [n] -> generateId notes = Note.id n + 1).
Proof.
  intros Hr. pose proof (reachable_increasing notes Hr) as Hs.
  split; [exact Hs|]. intros l n ->.
  destruct (generateId_max (l ++ [n])) as (m & Hm & Hle & ->);
    [destruct l; discriminate|].
  unfold ids in Hm, Hs, Hle. rewrite map_app in Hm, Hs, Hle. cbn [map] in Hm, Hs, Hle.
  pose proof (increasing_snoc_inv _ _ Hs) as Hlt.
  assert (Hn : Note.id n <= m)
    by (apply Hle, in_app_iff; right; left; reflexivity).
  apply in_app_iff in Hm. destruct Hm as [Hm|[Hm|[]]].
  - specialize (Hlt m Hm). lia.
  - lia.
Qed.

Lemma reachable_ids_increase_seed :
  reachable notes0 /\
  StronglySorted Z.lt (ids notes0) /\
  (forall l n, notes0 = l ++ [n] -> generateId notes0 = Note.id n + 1).
Proof.
  split; [apply reachable_seed|].
  apply (reachable_ids_increase notes0). apply reachable_seed.
Defined.

Section Bounds.

Lemma ids_filter_incl (f : Note -> bool) (notes : list Note) (i : Z) :
  In i (ids (filter f notes)) -> In i (ids notes).
Proof.
  unfold ids. rewrite !in_map_iff. intros (m & E & Hm).
  exists m. apply filter_In in Hm. tauto.
Qed.

Lemma handle_bound (k : Z) (req : request) (notes : list Note) :
  0 <= k ->
  (forall i, In i (ids notes) -> 1 <= i <= k) ->
  forall i, In i (ids (snd (handle req notes))) -> 1 <= i <= k + 1.
Proof.
  intros Hk Hb.
  assert (Hb' : forall i, In i (ids notes) -> 1 <= i <= k + 1)
    by (intros i Hi; specialize (Hb i Hi); lia).
  destruct req as [|id|body now|id body|id]; cbn [handle].
  - exact Hb'.
  - rewrite getNote_pure. exact Hb'.
  - unfold createNote. destruct (negb (truthy (get body "content"))); [exact Hb'|].
    cbn [snd]. unfold ids. rewrite map_app. cbn [map Note.id].
    intros i Hi. apply in_app_iff in Hi. destruct Hi as [Hi|[<-|[]]].
    + apply Hb', Hi.
    + destruct notes as [|a l]; [rewrite generateId_nil; lia|].
      destruct (generateId_max (a :: l)) as (m & Hm & _ & ->); [discriminate|].
      specialize (Hb m Hm). lia.
  - rewrite updateNote_ids. exact Hb'.
  - intros i Hi. apply Hb'. unfold deleteNote in Hi. cbn [snd] in Hi.
    apply (ids_filter_incl _ _ _ Hi).
Qed.

Lemma serve_bound (reqs : list request) :
  forall (k : Z) (notes : list Note),
    0 <= k ->
    (forall i, In i (ids notes) -> 1 <= i <= k) ->
    forall i, In i (ids (serve reqs notes)) ->
              1 <= i <= k + Z.of_nat (List.length reqs).
Proof.
  induction reqs as [|req reqs IH]; intros k notes Hk Hb i Hi.
  - cbn in Hi. specialize (Hb i Hi). cbn. lia.
  - cbn [serve fold_left] in Hi. fold (serve reqs (snd (handle req notes))) in Hi.
    pose proof (IH (k + 1) (snd (handle req notes)) ltac:(lia)
                   (handle_bound k req notes Hk Hb) i Hi) as H.
    cbn [List.length]. lia.
Qed.

End Bounds.

(** X12: after any sequence of requests served from start-up, every id in
    the collection is an integer between 1 and 3 plus the number of
    requests served. *)
Theorem served_ids_bounded (reqs : list request) (d1 d2 d3 : string) (i : Z) :
  In i (ids (serve reqs (seed d1 d2 d3))) ->
  1 <= i <= 3 + Z.of_nat (List.length reqs).
Proof.
  apply serve_bound; [lia|].
  cbn. intros j Hj. lia.
Qed.

Lemma served_ids_bounded_seed :
  In 4 (ids (serve [POST_notes body_test later; DELETE_note (of_Z 2)] notes0)) /\
  1 <= 4 <= 3 + Z.of_nat (List.length [POST_notes body_test later; DELETE_note (of_Z 2)]).
Proof.
  split; [right; right; left; reflexivity|].
  apply (served_ids_bounded
           [POST_notes body_test later; DELETE_note (of_Z 2)] startup startup startup 4).
  right. right. left. reflexivity.
Defined.

(** ** What a stored note can hold *)

Lemma handle_contents (req : request) (notes : list Note) :
  (forall n, In n notes -> truthy (Note.content n) = true) ->
  forall n, In n (snd (handle req notes)) -> truthy (Note.content n) = true.
Proof.
  intros H. destruct req as [|id|body now|id body|id]; cbn [handle].
  - exact H.
  - rewrite getNote_pure. exact H.
  - unfold createNote. destruct (truthy (get body "content")) eqn:E;
      cbn [negb snd]; [|exact H].
    intros n Hn. apply in_app_iff in Hn. destruct Hn as [Hn|[<-|[]]];
      [apply H, Hn | exact E].
  - unfold updateNote. destruct (find (has_id id) notes) as [note|] eqn:E;
      cbn [snd]; [|exact H].
    intros n Hn. apply in_map_iff in Hn. destruct Hn as (m & <- & Hm).
    destruct (has_id id m); [|apply H, Hm].
    apply find_some in E. change (truthy (Note.content note) = true).
    apply H. tauto.
  - intros n Hn. apply deleteNote_In in Hn. apply H. tauto.
Qed.

(** X13: no stored note ever has a falsy content: in every collection the
    service can hold, each note's content is truthy (so never the empty
    string, [null], [false] or 0). *)
Theorem reachable_contents_truthy (notes : list Note) (n : Note) :
  reachable notes -> In n notes -> truthy (Note.content n) = true.
Proof.
  intros Hr. revert n. induction Hr as [d1 d2 d3|req notes _ IH].
  - intros n Hn. cbn in Hn. destruct Hn as [<-|[<-|[<-|[]]]]; reflexivity.
  - apply handle_contents, IH.
Qed.

Lemma reachable_contents_truthy_seed :
  truthy (Note.content (Note.mk 1 (Str "HTML is easy") (Boolean true) startup)) = true.
Proof.
  apply (reachable_contents_truthy notes0).
  - apply reachable_seed.
  - left. reflexivity.
Defined.

(** X14: a note's id, content and date never change once it is stored:
    after any request, every note of the collection either is the note
    this request created, or has the id, content and date of a note that
    was in the collection before the request. *)
Theorem stored_fields_are_immutable (req : request) (notes : list Note) (n' : Note) :
  In n' (snd (handle req notes)) ->
  (exists n, In n notes /\
             Note.id n' = Note.id n /\
             Note.content n' = Note.content n /\
             Note.date n' = Note.date n) \/
  (exists body now, req = POST_notes body now /\
                    fst (handle req notes) = Response 201 (json_note n')).
Proof.
  assert (Hsame : In n' notes ->
            exists n, In n notes /\ Note.id n' = Note.id n /\
                      Note.content n' = Note.content n /\
                      Note.date n' = Note.date n)
    by (intros H; exists n'; auto).
  destruct req as [|id|body now|id body|id]; cbn [handle].
  - intros H. left. apply Hsame, H.
  - rewrite getNote_pure. intros H. left. apply Hsame, H.
  - unfold createNote. destruct (negb (truthy (get body "content")));
      cbn [fst snd]; [intros H; left; apply Hsame, H|].
    intros H. apply in_app_iff in H. destruct H as [H|[<-|[]]].
    + left. apply Hsame, H.
    + right. exists body, now. split; reflexivity.
  - unfold updateNote. destruct (find (has_id id) notes) as [note|] eqn:E;
      cbn [snd]; [|intros H; left; apply Hsame, H].
    intros H. left. apply in_map_iff in H. destruct H as (m & <- & Hm).
    destruct (has_id id m) eqn:Em; [|apply Hsame, Hm].
    apply find_some in E. exists note. split; [tauto|].
    unfold updatedNote. cbn [Note.id Note.content Note.date]. auto.
  - intros H. left. apply Hsame. apply deleteNote_In in H. tauto.
Qed.

Lemma stored_fields_are_immutable_seed :
  (exists n, In n notes0 /\
             Note.id (Note.mk 2 (Str "Browser can execute only JavaScript")
                              (Boolean true) startup) = Note.id n /\
             Note.content (Note.mk 2 (Str "Browser can execute only JavaScript")
                                   (Boolean true) startup) = Note.content n /\
             Note.date (Note.mk 2 (Str "Browser can execute only JavaScript")
                                (Boolean true) startup) = Note.date n) \/
  (exists body now,
      PUT_note (of_Z 2) body_important_true = POST_notes body now /\
      fst (handle (PUT_note (of_Z 2) body_important_true) notes0) =
        Response 201 (json_note (Note.mk 2 (Str "Browser can execute only JavaScript")
                                         (Boolean true) startup))).
Proof.
  apply (stored_fields_are_immutable (PUT_note (of_Z 2) body_important_true) notes0).
  right. left. reflexivity.
Defined.

(** X15: a create takes any truthy JSON value as content, not text
    only: an array or an object, even an empty one, is accepted with a
    201 and stored as it came. *)
Theorem createNote_accepts_any_truthy_content
    (body : object) (now : string) (notes : list Note) :
  (exists elems, get body "content" = Arr elems) \/
  (exists props, get body "content" = Obj props) ->
  exists note,
    createNote body now notes = (Response 201 (json_note note), notes ++ [note]) /\
    Note.content note = get body "content".
Proof.
  intros H.
  assert (Hc : truthy (get body "content") = true)
    by (destruct H as [[x ->]|[x ->]]; reflexivity).
  rewrite (createNote_ok body now notes Hc). cbv zeta.
  eexists. split; reflexivity.
Qed.

Lemma createNote_accepts_any_truthy_content_empty_array :
  exists note,
    createNote [("content", Arr [])] later notes0 =
      (Response 201 (json_note note), notes0 ++ [note]) /\
    Note.content note = get [("content", Arr [])] "content".
Proof.
  apply (createNote_accepts_any_truthy_content [("content", Arr [])] later notes0).
  left. exists []. reflexivity.
Defined.

(** ** The environment *)

(** X16: the error handler always answers 500 and gives the error's own
    message only when [NODE_ENV] is exactly ["development"]; when the
    variable is unset or empty the message is the generic one, although
    [/health] then reports the environment as ["development"]. *)
Theorem error_detail_only_in_development
    (NODE_ENV : option string) (err_message now : string) :
  fst (errorHandler NODE_ENV err_message) = 500 /\
  error (snd (errorHandler NODE_ENV err_message)) = "Internal server error" /\
  (NODE_ENV = Some "development" ->
   message (snd (errorHandler NODE_ENV err_message)) = err_message) /\
  (NODE_ENV <> Some "development" ->
   message (snd (errorHandler NODE_ENV err_message)) = "Something went wrong") /\
  (NODE_ENV = None \/ NODE_ENV = Some "" ->
   message (snd (errorHandler NODE_ENV err_message)) = "Something went wrong" /\
   environment (snd (getHealth NODE_ENV now)) = Str "development").
Proof.
  split; [reflexivity|]. split; [reflexivity|]. split; [|split].
  - intros ->. reflexivity.
  - intros H. unfold errorHandler. cbn [snd message].
    destruct NODE_ENV as [s|]; cbn [is_development]; [|reflexivity].
    destruct (String.eqb_spec s "development") as [->|_]; [|reflexivity].
    elim H. reflexivity.
  - intros [->| ->]; split; reflexivity.
Qed.

(** [/health] answers 200 and reports [NODE_ENV] itself whenever the
    variable is set to a non-empty string, and ["development"]
    otherwise. *)
Lemma health_environment (NODE_ENV : option string) (now : string) :
  fst (getHealth NODE_ENV now) = 200 /\
  timestamp (snd (getHealth NODE_ENV now)) = now /\
  (forall s, NODE_ENV = Some s -> s <> "" ->
             environment (snd (getHealth NODE_ENV now)) = Str s) /\
  (NODE_ENV = None \/ NODE_ENV = Some "" ->
   environment (snd (getHealth NODE_ENV now)) = Str "development").
Proof.
  split; [reflexivity|]. split; [reflexivity|]. split.
  - intros s -> Hs. unfold getHealth. cbn [snd environment env]. unfold or.
    cbn [truthy]. destruct (String.eqb_spec s ""); [contradiction|reflexivity].
  - intros [->| ->]; reflexivity.
Qed.

(** ** More on path ids and on updates *)

(** X17: a path id that is a number but no integer (a fraction such as
    1.5, or an infinity) matches no note: get-by-id and update answer
    404, delete answers 204, and the collection stays as it is. *)
Theorem non_integer_id_matches_nothing
    (id : number) (body : object) (notes : list Note) :
  (forall z, strict_eq (of_Z z) id = false) ->
  getNote id notes = (Response 404 (json_error "Note not found"), notes) /\
  updateNote id body notes = (Response 404 (json_error "Note not found"), notes) /\
  deleteNote id notes = (Response 204 empty, notes).
Proof.
  intros Hz.
  assert (H : forall n, In n notes -> has_id id n = false)
    by (intros n _; apply Hz).
  split; [|split].
  - apply getNote_missing, H.
  - unfold updateNote. rewrite (find_has_id_None id notes H). reflexivity.
  - apply deleteNote_absent, H.
Qed.

Lemma half_is_no_integer : forall z, strict_eq (of_Z z) (Finite (3 # 2)) = false.
Proof.
  intros z. unfold strict_eq, of_Z, Qeq_bool, inject_Z. cbn [Qnum Qden].
  apply Z.eqb_neq. lia.
Defined.

(** GET, PUT and DELETE on /api/notes/1.5. *)
Lemma non_integer_id_matches_nothing_seed :
  getNote (Finite (3 # 2)) notes0 =
    (Response 404 (json_error "Note not found"), notes0) /\
  updateNote (Finite (3 # 2)) body_important_true notes0 =
    (Response 404 (json_error "Note not found"), notes0) /\
  deleteNote (Finite (3 # 2)) notes0 = (Response 204 empty, notes0).
Proof.
  apply (non_integer_id_matches_nothing (Finite (3 # 2)) body_important_true notes0
           half_is_no_integer).
Defined.

(** X18: an update never changes the id that the next create assigns. *)
Theorem updateNote_keeps_next_id (id : number) (body : object) (notes : list Note) :
  generateId (snd (updateNote id body notes)) = generateId notes.
Proof. unfold generateId. rewrite updateNote_ids. reflexivity. Qed.

Lemma updatedNote_overwrites (note : Note) (body body' : object) :
  defined (get body' "important") = true ->
  updatedNote (updatedNote note body) body' = updatedNote note body'.
Proof.
  intros H. unfold updatedNote.
  cbn [Note.id Note.content Note.important Note.date]. rewrite H. reflexivity.
Qed.

(** X19: the last update wins: when a second update of the same id gives
    a value for [important], the response and the collection are those of
    that second update alone. *)
Theorem updateNote_last_wins
    (id : number) (body body' : object) (notes : list Note) :
  defined (get body' "important") = true ->
  updateNote id body' (snd (updateNote id body notes)) = updateNote id body' notes.
Proof.
  intros Hd. unfold updateNote at 2 3.
  destruct (find (has_id id) notes) as [note|] eqn:E; cbn [snd].
  - assert (Hu : has_id id (updatedNote note body) = true)
      by (rewrite has_id_updatedNote; apply find_some in E; tauto).
    unfold updateNote.
    rewrite (find_replaced id notes note (updatedNote note body) E Hu).
    rewrite (updatedNote_overwrites note body body' Hd), map_map. f_equal.
    apply map_ext. intros m. destruct (has_id id m) eqn:Em.
    + rewrite Hu. reflexivity.
    + rewrite Em. reflexivity.
  - unfold updateNote. rewrite E. reflexivity.
Qed.

(** PUT /api/notes/2 with an empty body, then with [{important: true}]. *)
Lemma updateNote_last_wins_seed :
  defined (get body_important_true "important") = true /\
  updateNote (of_Z 2) body_important_true (snd (updateNote (of_Z 2) [] notes0)) =
    updateNote (of_Z 2) body_important_true notes0.
Proof.
  split; [reflexivity|].
  apply (updateNote_last_wins (of_Z 2) [] body_important_true notes0). reflexivity.
Defined.
